(** * go-solid: the SOLID examples, embedded and checked

    The repository holds one Go program per principle.  Each program is
    embedded in a module of its own, named after its directory:

    - [SRP] : [1.SRP/main.go], a data holder and a persistence stub;
    - [OCP] : [2.OCP/main.go], roles as implementers of a salary interface;
    - [LSP] : [3.LSP/main.go], two employee kinds behind [baseEmployee];
    - [ISP] : [4.ISP/main.go], segregated capability interfaces;
    - [DIP] : [5.DIP/main.go], a manager over a repository abstraction.

    Shared conventions.  Go's [int] is a 64-bit two's complement integer,
    carried as a [Z] with the wrap-around written out.  Standard output is
    the list of chunks written so far; a computation threads it and may
    panic.  An interface is a type class, a (possibly nil) interface value
    is an optional package of a dynamic type, its instance and a value.
    A Go [error] is [None] for nil and [Some msg] for a value whose
    [Error()] is [msg]. *)

From Stdlib Require Import String Ascii List Bool ZArith Lia DecimalString.
From Stdlib Require Import PrimFloat DecimalPos DecimalZ.
From ExtLib Require Import Structures.Monad Structures.MonadState.
From ExtLib Require Import Structures.MonadExc.
From ExtLib Require Import Data.Monads.StateMonad Data.Monads.EitherMonad.
Import ListNotations MonadNotation.
Local Open Scope monad_scope.
Local Open Scope string_scope.
Local Open Scope Z_scope.

(* ===================================================================== *)
(** ** Go's built-in [int] *)
(* ===================================================================== *)

Module GoInt.

Definition intSize : Z := 64.
Definition MinInt : Z := - 2 ^ (intSize - 1).
Definition MaxInt : Z := 2 ^ (intSize - 1) - 1.

(** The value an arithmetic result takes once stored in an [int]. *)
Definition wrap (z : Z) : Z :=
  (z - MinInt) mod 2 ^ intSize + MinInt.

Definition inRange (z : Z) : Prop := MinInt <= z <= MaxInt.

(** [a * b] on two [int]s. *)
Definition mul (a b : Z) : Z := wrap (a * b).

End GoInt.

(* ===================================================================== *)
(** ** Running Go code: standard output, panics, errors *)
(* ===================================================================== *)

Definition error : Type := option string.

(** The line feed a Go string literal spells [\n]. *)
Definition LF : string := String (ascii_of_nat 10) EmptyString.

(** Standard output: the chunks written, oldest first. *)
Definition Stdout : Type := list string.

(** A run-time panic carries its message. *)
Definition panic : Type := string.

(** A Go computation writes to standard output and either returns a value
    or panics; what was written before a panic stays written. *)
Definition Go : Type -> Type := eitherT panic (state Stdout).

#[global] Instance Monad_Go : Monad Go := Monad_eitherT panic _.
#[global] Instance MonadExc_Go : MonadExc panic Go := Exception_eitherT panic _.

Definition run {A} (p : Go A) (out : Stdout) : (panic + A) * Stdout :=
  runState (unEitherT p) out.

Definition write (s : string) : Go unit :=
  mkEitherT (out <- get ;; put (out ++ [s])%list ;; ret (inr tt)).

(** [sub] occurs somewhere inside [s]. *)
Definition contains (s sub : string) : Prop :=
  exists pre post, s = pre ++ sub ++ post.

(** *** Interface values

    An interface is a class [C] of method dictionaries.  A value of the
    interface type is nil or boxes a dynamic type, its dictionary and a
    value of that type. *)

Record boxed (C : Type -> Type) : Type :=
  Box { dyn : Type; impl : C dyn; val : dyn }.

Arguments Box {C dyn} impl val.
Arguments dyn {C} b.
Arguments impl {C} b.
Arguments val {C} b.

Definition iface (C : Type -> Type) : Type := option (boxed C).

(** The implicit conversion of a concrete value to an interface type. *)
Definition box {C : Type -> Type} {T : Type} {I : C T} (v : T) : iface C :=
  Some (Box I v).

Definition nilDereference : panic :=
  "runtime error: invalid memory address or nil pointer dereference".

(** A method call through an interface value: it panics on nil, and
    otherwise dispatches on the dynamic type. *)
Definition invoke {C : Type -> Type} {A : Type}
    (i : iface C) (m : forall T, C T -> T -> Go A) : Go A :=
  match i with
  | None => raise nilDereference
  | Some b => m (dyn b) (impl b) (val b)
  end.

(* ===================================================================== *)
(** ** The part of package [fmt] the examples call *)
(* ===================================================================== *)

Module fmt.

(** An operand of a print call. *)
Inductive arg : Type :=
| AString (s : string)
| AInt (n : Z).

Definition itoa (n : Z) : string := NilZero.string_of_int (Z.to_int n).

(** The default ([%v]) rendering of an operand. *)
Definition formatV (a : arg) : string :=
  match a with
  | AString s => s
  | AInt n => itoa n
  end.

Definition typeName (a : arg) : string :=
  match a with
  | AString _ => "string"
  | AInt _ => "int"
  end.

Definition typed (a : arg) : string := typeName a ++ "=" ++ formatV a.

(** One verb applied to one operand.  The verbs interpreted are the ones
    the examples use, [%s] and [%d], and [%v]; any other verb character,
    or a verb applied to an operand of the wrong kind, is reported in
    fmt's bad-verb form.  Flags, width and precision are not modelled. *)
Definition verb (c : ascii) (a : arg) : string :=
  match c, a with
  | "s"%char, AString s => s
  | "d"%char, AInt n => itoa n
  | "v"%char, _ => formatV a
  | _, _ => "%!" ++ String c ("(" ++ typed a ++ ")")
  end.

Fixpoint joinTyped (args : list arg) : string :=
  match args with
  | [] => ""
  | [a] => typed a
  | a :: rest => typed a ++ ", " ++ joinTyped rest
  end.

(** Operands left over once the format is exhausted. *)
Definition extra (args : list arg) : string :=
  match args with
  | [] => ""
  | _ => "%!(EXTRA " ++ joinTyped args ++ ")"
  end.

Fixpoint Sprintf (format : string) (args : list arg) : string :=
  match format with
  | EmptyString => extra args
  | String "%"%char EmptyString => "%!(NOVERB)" ++ extra args
  | String "%"%char (String c rest) =>
      if Ascii.eqb c "%"%char then String "%"%char (Sprintf rest args)
      else match args with
           | [] => "%!" ++ String c ("(MISSING)" ++ Sprintf rest [])
           | a :: args' => verb c a ++ Sprintf rest args'
           end
  | String c rest => String c (Sprintf rest args)
  end.

Fixpoint joinSpace (args : list arg) : string :=
  match args with
  | [] => ""
  | [a] => formatV a
  | a :: rest => formatV a ++ " " ++ joinSpace rest
  end.

(** [Sprintln]: operands separated by spaces, a line feed appended. *)
Definition Sprintln (args : list arg) : string := joinSpace args ++ LF.

Definition Printf (format : string) (args : list arg) : Go unit :=
  write (Sprintf format args).

Definition Println (args : list arg) : Go unit :=
  write (Sprintln args).

End fmt.

(* ===================================================================== *)
(** ** 2.OCP/main.go *)
(* ===================================================================== *)

Module OCP.

(** [type role interface { getSalary() int }] *)
Class role (T : Type) : Type := { getSalary : T -> Go Z }.

(** [type employee struct { name string; role role }] *)
Record employee : Type := {
  employee_name : string;
  employee_role : iface role
}.

(** [type swe struct{}] and its only value [swe{}]. *)
Inductive swe : Type := swe_lit.

Definition swe_getSalary (s : swe) : Z := 3000.

#[global] Instance role_swe : role swe :=
  {| getSalary := fun s => ret (swe_getSalary s) |}.

(** [type sswe struct{}] and its only value [sswe{}]. *)
Inductive sswe : Type := sswe_lit.

Definition sswe_getSalary (s : sswe) : Z := 5000.

#[global] Instance role_sswe : role sswe :=
  {| getSalary := fun s => ret (sswe_getSalary s) |}.

(** [func (em employee) getSalary() int { return em.role.getSalary() }] *)
Definition employee_getSalary (em : employee) : Go Z :=
  invoke (employee_role em) (@getSalary).

(** The zero value [employee{}]. *)
Definition employee_zero : employee :=
  {| employee_name := ""; employee_role := None |}.

Definition em1 : employee :=
  {| employee_name := "Mohamed"; employee_role := box swe_lit |}.

Definition em2 : employee :=
  {| employee_name := "Ahmed"; employee_role := box sswe_lit |}.

Definition main : Go unit :=
  s1 <- employee_getSalary em1 ;;
  fmt.Println [fmt.AString "Salary"; fmt.AInt s1] ;;
  s2 <- employee_getSalary em2 ;;
  fmt.Println [fmt.AString "Salary"; fmt.AInt s2].

End OCP.

(* ===================================================================== *)
(** ** 3.LSP/main.go *)
(* ===================================================================== *)

Module LSP.

(** [type baseEmployee interface { getName() string; getSalary() int }] *)
Class baseEmployee (T : Type) : Type := {
  getName : T -> Go string;
  getSalary : T -> Go Z
}.

Record fullTimeEmployee : Type := {
  fullTimeEmployee_name : string;
  fullTimeEmployee_salary : Z
}.

Definition fullTimeEmployee_getName (em : fullTimeEmployee) : string :=
  fullTimeEmployee_name em.

Definition fullTimeEmployee_getSalary (em : fullTimeEmployee) : Z :=
  fullTimeEmployee_salary em.

#[global] Instance baseEmployee_fullTimeEmployee
  : baseEmployee fullTimeEmployee :=
  {| getName := fun em => ret (fullTimeEmployee_getName em);
     getSalary := fun em => ret (fullTimeEmployee_getSalary em) |}.

Record contractorEmployee : Type := {
  contractorEmployee_name : string;
  contractorEmployee_hourlyRate : Z;
  contractorEmployee_hoursWorked : Z
}.

Definition contractorEmployee_getName (cem : contractorEmployee) : string :=
  contractorEmployee_name cem.

(** [return cem.hourlyRate * cem.hoursWorked], on [int]. *)
Definition contractorEmployee_getSalary (cem : contractorEmployee) : Z :=
  GoInt.mul (contractorEmployee_hourlyRate cem)
            (contractorEmployee_hoursWorked cem).

#[global] Instance baseEmployee_contractorEmployee
  : baseEmployee contractorEmployee :=
  {| getName := fun cem => ret (contractorEmployee_getName cem);
     getSalary := fun cem => ret (contractorEmployee_getSalary cem) |}.

(** [fmt.Printf("Name: %s, Salary: %d\n", em.getName(), em.getSalary())] *)
Definition printEmployeeInfo (em : iface baseEmployee) : Go unit :=
  n <- invoke em (@getName) ;;
  s <- invoke em (@getSalary) ;;
  fmt.Printf ("Name: %s, Salary: %d" ++ LF) [fmt.AString n; fmt.AInt s].

Definition em1 : fullTimeEmployee :=
  {| fullTimeEmployee_name := "Mohamed"; fullTimeEmployee_salary := 5000 |}.

Definition em2 : contractorEmployee :=
  {| contractorEmployee_name := "Ahmed";
     contractorEmployee_hourlyRate := 120;
     contractorEmployee_hoursWorked := 10 |}.

Definition main : Go unit :=
  printEmployeeInfo (box em1) ;;
  printEmployeeInfo (box em2).

End LSP.

(* ===================================================================== *)
(** ** 5.DIP/main.go *)
(* ===================================================================== *)

Module DIP.

Record Employee : Type := {
  Employee_Name : string;
  Employee_Salary : Z
}.

(** [type EmployeeRepository interface] *)
Class EmployeeRepository (T : Type) : Type := {
  Save : T -> Employee -> Go error;
  GetByName : T -> string -> Go (Employee * error)
}.

(** [type MySQLRepository struct{}] *)
Inductive MySQLRepository : Type := MySQLRepository_lit.

Definition MySQLRepository_Save (db : MySQLRepository) (emp : Employee)
  : Go error :=
  fmt.Printf ("💾 Saving employee '%s' to MySQL database" ++ LF)
             [fmt.AString (Employee_Name emp)] ;;
  ret None.

Definition MySQLRepository_GetByName (db : MySQLRepository) (name : string)
  : Go (Employee * error) :=
  fmt.Printf ("🔍 Fetching employee '%s' from MySQL database" ++ LF)
             [fmt.AString name] ;;
  ret ({| Employee_Name := name; Employee_Salary := 5000 |}, None).

#[global] Instance EmployeeRepository_MySQLRepository
  : EmployeeRepository MySQLRepository :=
  {| Save := MySQLRepository_Save; GetByName := MySQLRepository_GetByName |}.

(** [type PostgresRepository struct{}] *)
Inductive PostgresRepository : Type := PostgresRepository_lit.

Definition PostgresRepository_Save (db : PostgresRepository) (emp : Employee)
  : Go error :=
  fmt.Printf ("💾 Saving employee '%s' to PostgreSQL database" ++ LF)
             [fmt.AString (Employee_Name emp)] ;;
  ret None.

Definition PostgresRepository_GetByName (db : PostgresRepository)
    (name : string) : Go (Employee * error) :=
  fmt.Printf ("🔍 Fetching employee '%s' from PostgreSQL database" ++ LF)
             [fmt.AString name] ;;
  ret ({| Employee_Name := name; Employee_Salary := 5000 |}, None).

#[global] Instance EmployeeRepository_PostgresRepository
  : EmployeeRepository PostgresRepository :=
  {| Save := PostgresRepository_Save;
     GetByName := PostgresRepository_GetByName |}.

(** [type MongoRepository struct{}] *)
Inductive MongoRepository : Type := MongoRepository_lit.

Definition MongoRepository_Save (db : MongoRepository) (emp : Employee)
  : Go error :=
  fmt.Printf ("💾 Saving employee '%s' to MongoDB database" ++ LF)
             [fmt.AString (Employee_Name emp)] ;;
  ret None.

Definition MongoRepository_GetByName (db : MongoRepository) (name : string)
  : Go (Employee * error) :=
  fmt.Printf ("🔍 Fetching employee '%s' from MongoDB database" ++ LF)
             [fmt.AString name] ;;
  ret ({| Employee_Name := name; Employee_Salary := 5000 |}, None).

#[global] Instance EmployeeRepository_MongoRepository
  : EmployeeRepository MongoRepository :=
  {| Save := MongoRepository_Save; GetByName := MongoRepository_GetByName |}.

(** [type EmployeeManager struct { repository EmployeeRepository }] *)
Record EmployeeManager : Type := {
  repository : iface EmployeeRepository
}.

Definition AddEmployee (em : EmployeeManager) (emp : Employee) : Go unit :=
  err <- invoke (repository em) (fun T I db => Save db emp) ;;
  match err with
  | Some e => fmt.Println [fmt.AString "Error saving employee:"; fmt.AString e]
  | None => ret tt
  end.

Definition FindEmployee (em : EmployeeManager) (name : string) : Go unit :=
  r <- invoke (repository em) (fun T I db => GetByName db name) ;;
  let (emp, err) := r : Employee * error in
  match err with
  | Some e =>
      fmt.Println [fmt.AString "Error fetching employee:"; fmt.AString e]
  | None =>
      fmt.Printf ("✅ Found employee: %s, Salary: %d" ++ LF)
                 [fmt.AString (Employee_Name emp);
                  fmt.AInt (Employee_Salary emp)]
  end.

Definition mohamed : Employee :=
  {| Employee_Name := "Mohamed"; Employee_Salary := 5000 |}.
Definition ahmed : Employee :=
  {| Employee_Name := "Ahmed"; Employee_Salary := 6000 |}.
Definition ali : Employee :=
  {| Employee_Name := "Ali"; Employee_Salary := 4500 |}.

Definition manager1 : EmployeeManager :=
  {| repository := box MySQLRepository_lit |}.
Definition manager2 : EmployeeManager :=
  {| repository := box PostgresRepository_lit |}.
Definition manager3 : EmployeeManager :=
  {| repository := box MongoRepository_lit |}.

Definition main : Go unit :=
  AddEmployee manager1 mohamed ;;
  FindEmployee manager1 "Mohamed" ;;
  fmt.Println [] ;;
  AddEmployee manager2 ahmed ;;
  FindEmployee manager2 "Ahmed" ;;
  fmt.Println [] ;;
  AddEmployee manager3 ali ;;
  FindEmployee manager3 "Ali".

End DIP.

(* ===================================================================== *)
(** ** 4.ISP/main.go *)
(* ===================================================================== *)

Module ISP.

(** The file is embedded twice: [Static] holds its declarations and the
    body of [main] as data, with Go's rules for method sets, interface
    satisfaction and assignability, to decide what the compiler accepts;
    the rest of the module is what the accepted code does when run. *)

Module Static.

(** *** The declarations, as the type checker sees them *)

(** The named types of the file, and the predeclared [error]. *)
Inductive name : Type :=
  | Employee | PaidEmployee | TaskAssigner
  | Developer | Manager | Intern
  | error_.

Inductive type : Type :=
  | string_
  | float64_
  | Named (n : name).

Record method : Type := {
  mname : string;
  params : list type;
  results : list type
  }.

Inductive decl : Type :=
  | Interface (embedded : list name) (methods : list method)
  | Struct (fields : list (string * type)).

Definition GetName_sig : method :=
  {| mname := "GetName"; params := []; results := [string_] |}.
Definition CalculateMonthlyPay_sig : method :=
  {| mname := "CalculateMonthlyPay"; params := []; results := [float64_] |}.
Definition AssignTask_sig : method :=
  {| mname := "AssignTask"; params := [string_; Named Employee];
     results := [Named error_] |}.

(** The [type] declarations of the file. *)
Definition declOf (n : name) : decl :=
  match n with
  | Employee => Interface [] [GetName_sig]
  | PaidEmployee => Interface [Employee] [CalculateMonthlyPay_sig]
  | TaskAssigner => Interface [] [AssignTask_sig]
  | Developer => Struct [("Name", string_); ("Salary", float64_)]
  | Manager => Struct [("Name", string_); ("Salary", float64_)]
  | Intern => Struct [("Name", string_)]
  | error_ =>
      Interface [] [{| mname := "Error"; params := []; results := [string_] |}]
  end.

(** The [func (recv T) ...] declarations of the file, by receiver. *)
Definition declaredMethods (n : name) : list method :=
  match n with
  | Developer => [GetName_sig; CalculateMonthlyPay_sig]
  | Manager => [GetName_sig; CalculateMonthlyPay_sig; AssignTask_sig]
  | Intern => [GetName_sig]
  | _ => []
  end.

(** The method set of a named type: the methods declared with it as the
    receiver, or, for an interface, its own methods and those of the
    interfaces it embeds.  Embedding is acyclic, so a depth equal to the
    number of named types is enough. *)
Fixpoint methodSetAt (depth : nat) (n : name) : list method :=
  match declOf n with
  | Struct _ => declaredMethods n
  | Interface embedded methods =>
      match depth with
      | O => methods
      | S d => (flat_map (methodSetAt d) embedded ++ methods)%list
      end
  end.

Definition methodSet (n : name) : list method := methodSetAt 7 n.

Definition isInterface (n : name) : bool :=
  match declOf n with
  | Interface _ _ => true
  | Struct _ => false
  end.

Definition name_eqb (a b : name) : bool :=
  match a, b with
  | Employee, Employee | PaidEmployee, PaidEmployee
  | TaskAssigner, TaskAssigner | Developer, Developer
  | Manager, Manager | Intern, Intern | error_, error_ => true
  | _, _ => false
  end.

Definition type_eqb (a b : type) : bool :=
  match a, b with
  | string_, string_ | float64_, float64_ => true
  | Named x, Named y => name_eqb x y
  | _, _ => false
  end.

Fixpoint types_eqb (a b : list type) : bool :=
  match a, b with
  | [], [] => true
  | x :: a', y :: b' => type_eqb x y && types_eqb a' b'
  | _, _ => false
  end.

(** Same name and identical signature. *)
Definition method_eqb (a b : method) : bool :=
  String.eqb (mname a) (mname b)
  && types_eqb (params a) (params b)
  && types_eqb (results a) (results b).

Definition typeMethodSet (t : type) : list method :=
  match t with
  | Named n => methodSet n
  | string_ | float64_ => []
  end.

(** A type implements an interface when its method set has every method
    of the interface. *)
Definition implements (t : type) (i : name) : bool :=
  isInterface i
  && forallb (fun m => existsb (method_eqb m) (typeMethodSet t))
             (methodSet i).

(** Assignability of a value of type [v] to a variable of type [t]:
    identical types, or [t] is an interface that [v] implements. *)
Definition assignableTo (v t : type) : bool :=
  type_eqb v t
  || match t with
     | Named i => implements v i
     | _ => false
     end.

(** *** Function bodies, as the type checker sees them *)

Inductive const : Type :=
  | StringLit (s : string)
  | NumberLit (n : Z).

Inductive expr : Type :=
  | Ident (x : string)
  | Const (c : const)
  | CompositeLit (n : name) (fields : list (string * const)).

Inductive stmt : Type :=
  | ShortVarDecl (x : string) (e : expr)
  | CallStmt (f : string) (args : list expr).

(** An untyped constant converts to a basic type that can hold it. *)
Definition constAssignableTo (c : const) (t : type) : bool :=
  match c, t with
  | StringLit _, string_ => true
  | NumberLit _, float64_ => true
  | _, _ => false
  end.

Fixpoint lookup {A : Type} (x : string) (l : list (string * A)) : option A :=
  match l with
  | [] => None
  | (y, a) :: rest => if String.eqb x y then Some a else lookup x rest
  end.

Definition fieldOk (declared : list (string * type)) (f : string * const)
  : bool :=
  match lookup (fst f) declared with
  | Some t => constAssignableTo (snd f) t
  | None => false
  end.

Definition scope : Type := list (string * type).

(** The type of an operand; constants are handled where they are used. *)
Definition typeOf (env : scope) (e : expr) : option type :=
  match e with
  | Ident x => lookup x env
  | Const (StringLit _) => Some string_
  | Const (NumberLit _) => None
  | CompositeLit n fields =>
      match declOf n with
      | Struct declared =>
          if forallb (fieldOk declared) fields then Some (Named n) else None
      | Interface _ _ => None
      end
  end.

Definition argOk (env : scope) (e : expr) (t : type) : bool :=
  match e with
  | Const c => constAssignableTo c t
  | _ => match typeOf env e with
         | Some v => assignableTo v t
         | None => false
         end
  end.

Fixpoint argsOk (env : scope) (args : list expr) (ps : list type) : bool :=
  match args, ps with
  | [], [] => true
  | e :: args', t :: ps' => argOk env e t && argsOk env args' ps'
  | _, _ => false
  end.

(** The parameter lists of [ProcessPayroll] and [AssignWork]. *)
Definition funcs : list (string * list type) :=
  [("ProcessPayroll", [Named PaidEmployee]);
   ("AssignWork", [Named TaskAssigner; Named Employee; string_])].

(** One statement: the scope after it, or [None] when it is rejected. *)
Definition checkStmt (env : scope) (s : stmt) : option scope :=
  match s with
  | ShortVarDecl x e =>
      match lookup x env, typeOf env e with
      | None, Some t => Some ((x, t) :: env)
      | _, _ => None
      end
  | CallStmt f args =>
      match lookup f funcs with
      | Some ps => if argsOk env args ps then Some env else None
      | None => None
      end
  end.

Fixpoint checkBody (env : scope) (body : list stmt) : option scope :=
  match body with
  | [] => Some env
  | s :: rest =>
      match checkStmt env s with
      | Some env' => checkBody env' rest
      | None => None
      end
  end.

Definition typechecks (body : list stmt) : bool :=
  match checkBody [] body with
  | Some _ => true
  | None => false
  end.

(** Go also rejects a local variable that is declared and never used. *)
Definition mentions (x : string) (e : expr) : bool :=
  match e with
  | Ident y => String.eqb x y
  | _ => false
  end.

Definition uses (x : string) (s : stmt) : bool :=
  match s with
  | ShortVarDecl _ e => mentions x e
  | CallStmt _ args => existsb (mentions x) args
  end.

Definition declared (body : list stmt) : list string :=
  flat_map (fun s => match s with
                     | ShortVarDecl x _ => [x]
                     | CallStmt _ _ => []
                     end) body.

Definition unused (body : list stmt) : list string :=
  filter (fun x => negb (existsb (uses x) body)) (declared body).

Definition compiles (body : list stmt) : bool :=
  typechecks body
  && match unused body with
     | [] => true
     | _ => false
     end.

Definition dev_decl : stmt :=
  ShortVarDecl "dev"
    (CompositeLit Developer
       [("Name", StringLit "Alice"); ("Salary", NumberLit 3000)]).
Definition mgr_decl : stmt :=
  ShortVarDecl "mgr"
    (CompositeLit Manager
       [("Name", StringLit "Bob"); ("Salary", NumberLit 5000)]).
Definition intern_decl : stmt :=
  ShortVarDecl "intern"
    (CompositeLit Intern [("Name", StringLit "Charlie")]).

(** The two calls the file comments out or marks as compile errors. *)
Definition payroll_intern : stmt :=
  CallStmt "ProcessPayroll" [Ident "intern"].
Definition assign_by_dev : stmt :=
  CallStmt "AssignWork"
    [Ident "dev"; Ident "intern"; Const (StringLit "Review code")].

(** The statements of [main], in order; [ProcessPayroll(intern)] is
    commented out in the file and is not among them. *)
Definition main_body : list stmt :=
  [dev_decl; mgr_decl; intern_decl;
   CallStmt "ProcessPayroll" [Ident "dev"];
   CallStmt "ProcessPayroll" [Ident "mgr"];
   CallStmt "AssignWork"
     [Ident "mgr"; Ident "dev"; Const (StringLit "Implement new feature")];
   assign_by_dev].

(** The scope once the three variables of [main] are declared. *)
Definition main_scope : scope :=
  [("intern", Named Intern); ("mgr", Named Manager);
   ("dev", Named Developer)].

End Static.

(** *** Run-time behaviour *)

(** [float64] is IEEE 754 binary64, the kernel's primitive float. *)
Definition float64 : Type := PrimFloat.float.

(** [type Employee interface { GetName() string }] *)
Class Employee (T : Type) : Type := { GetName : T -> Go string }.

(** [type PaidEmployee interface { Employee; CalculateMonthlyPay() float64 }] *)
Class PaidEmployee (T : Type) : Type := {
  PaidEmployee_Employee :: Employee T;
  CalculateMonthlyPay : T -> Go float64
}.

(** [type TaskAssigner interface] *)
Class TaskAssigner (T : Type) : Type := {
  AssignTask : T -> string -> iface Employee -> Go error
}.

Record Developer : Type := {
  Developer_Name : string;
  Developer_Salary : float64
}.

Definition Developer_GetName (d : Developer) : string := Developer_Name d.

Definition Developer_CalculateMonthlyPay (d : Developer) : float64 :=
  Developer_Salary d.

#[global] Instance Employee_Developer : Employee Developer :=
  {| GetName := fun d => ret (Developer_GetName d) |}.

#[global] Instance PaidEmployee_Developer : PaidEmployee Developer :=
  {| CalculateMonthlyPay := fun d => ret (Developer_CalculateMonthlyPay d) |}.

Record Manager : Type := {
  Manager_Name : string;
  Manager_Salary : float64
}.

Definition Manager_GetName (m : Manager) : string := Manager_Name m.

Definition Manager_CalculateMonthlyPay (m : Manager) : float64 :=
  Manager_Salary m.

Definition Manager_AssignTask (m : Manager) (task : string)
    (assignee : iface Employee) : Go error :=
  n <- invoke assignee (@GetName) ;;
  fmt.Printf ("Manager %s assigned '%s' to %s" ++ LF)
             [fmt.AString (Manager_Name m); fmt.AString task; fmt.AString n] ;;
  ret None.

#[global] Instance Employee_Manager : Employee Manager :=
  {| GetName := fun m => ret (Manager_GetName m) |}.

#[global] Instance PaidEmployee_Manager : PaidEmployee Manager :=
  {| CalculateMonthlyPay := fun m => ret (Manager_CalculateMonthlyPay m) |}.

#[global] Instance TaskAssigner_Manager : TaskAssigner Manager :=
  {| AssignTask := Manager_AssignTask |}.

Record Intern : Type := { Intern_Name : string }.

Definition Intern_GetName (i : Intern) : string := Intern_Name i.

#[global] Instance Employee_Intern : Employee Intern :=
  {| GetName := fun i => ret (Intern_GetName i) |}.

Section Payroll.

(** The [%.2f] rendering of a [float64], left open. *)
Variable fixed2 : float64 -> string.

(** [fmt.Printf("Paying %s: %.2f EUR\n", e.GetName(), e.CalculateMonthlyPay())] *)
Definition ProcessPayroll (e : iface PaidEmployee) : Go unit :=
  n <- invoke e (fun T I v => GetName v) ;;
  pay <- invoke e (@CalculateMonthlyPay) ;;
  write (fmt.Sprintf "Paying %s: " [fmt.AString n]
         ++ fixed2 pay ++ " EUR" ++ LF).

End Payroll.

(** [_ = assigner.AssignTask(task, dev)] *)
Definition AssignWork (assigner : iface TaskAssigner) (dev : iface Employee)
    (task : string) : Go unit :=
  _ <- invoke assigner (fun T I v => AssignTask v task dev) ;;
  ret tt.

(** The three values [main] builds.  [main] itself has no run-time
    embedding: its last call needs a [TaskAssigner] dictionary for
    [Developer], and the file declares none (see [Static.main_body]). *)
Definition dev : Developer :=
  {| Developer_Name := "Alice"; Developer_Salary := 3000%float |}.
Definition mgr : Manager :=
  {| Manager_Name := "Bob"; Manager_Salary := 5000%float |}.
Definition intern : Intern := {| Intern_Name := "Charlie" |}.

End ISP.

(* ===================================================================== *)
(** ** Inputs from outside the repository

    Every implementer the repository provides succeeds.  To exercise the
    failure branches of the callers, these implementers fail: they are
    arguments a caller can be given, not code of the repository. *)
(* ===================================================================== *)

Module Failing.

Inductive repository : Type := repository_lit.

#[global] Instance EmployeeRepository_repository
  : DIP.EmployeeRepository repository :=
  {| DIP.Save := fun _ _ => ret (Some "disk full");
     DIP.GetByName := fun _ name =>
       ret ({| DIP.Employee_Name := ""; DIP.Employee_Salary := 0 |},
            Some "no such employee") |}.

Inductive assigner : Type := assigner_lit.

#[global] Instance TaskAssigner_assigner : ISP.TaskAssigner assigner :=
  {| ISP.AssignTask := fun _ _ _ => ret (Some "not allowed") |}.

End Failing.

(* ===================================================================== *)
(** ** 1.SRP/main.go *)
(* ===================================================================== *)

Module SRP.

(** A pointer the program only reads through: nil, or the value it
    points to. *)
Definition pointer (A : Type) : Type := option A.

(** Reading through a pointer panics on nil. *)
Definition deref {A : Type} (p : pointer A) : Go A :=
  match p with
  | None => raise nilDereference
  | Some a => ret a
  end.

Record employee : Type := {
  employee_firstName : string;
  employee_lastName : string;
  employee_email : string
}.

(** [type empRepository struct {}] *)
Inductive empRepository : Type := empRepository_lit.

(** [return fmt.Sprintf("%s %s", em.firstName, em.lastName)] *)
Definition employee_getFullName (em : pointer employee) : Go string :=
  e <- deref em ;;
  ret (fmt.Sprintf "%s %s" [fmt.AString (employee_firstName e);
                            fmt.AString (employee_lastName e)]).

(** [return em.email] *)
Definition employee_getEmail (em : pointer employee) : Go string :=
  e <- deref em ;;
  ret (employee_email e).

(** The body is the comment [//save to DB]: the receiver is never read. *)
Definition empRepository_saveEmployee (emr : pointer empRepository)
  : Go unit :=
  ret tt.

Definition user : employee :=
  {| employee_firstName := "Mohamed";
     employee_lastName := "Habib";
     employee_email := "mohamed@gmail.com" |}.

(** The three calls take the address of a local variable; the two results
    are dropped. *)
Definition main : Go unit :=
  _ <- employee_getFullName (Some user) ;;
  _ <- employee_getEmail (Some user) ;;
  empRepository_saveEmployee (Some empRepository_lit).

End SRP.

(* ===================================================================== *)
(** ** More inputs from outside the repository

    Implementers whose methods panic, to see what the callers do then. *)
(* ===================================================================== *)

Module Panicking.

Inductive repository : Type := repository_lit.

#[global] Instance EmployeeRepository_repository
  : DIP.EmployeeRepository repository :=
  {| DIP.Save := fun _ _ => write "connecting" ;; raise "connection lost";
     DIP.GetByName := fun _ _ => write "connecting" ;; raise "connection lost" |}.

(** An employee whose name is known and whose salary cannot be computed. *)
Inductive employee : Type := employee_lit.

#[global] Instance baseEmployee_employee : LSP.baseEmployee employee :=
  {| LSP.getName := fun _ => ret "Nobody";
     LSP.getSalary := fun _ => raise "no contract" |}.

End Panicking.

(* ===================================================================== *)
(** ** The lines the specification names *)
(* ===================================================================== *)

(** "Name: <name>, Salary: <salary>" *)
Definition employeeLine (name : string) (salary : Z) : string :=
  "Name: " ++ name ++ ", Salary: " ++ fmt.itoa salary ++ LF.

(** "Saving employee '<name>' to <backend>" *)
Definition saveLine (backend name : string) : string :=
  "💾 Saving employee '" ++ name ++ "' to " ++ backend ++ " database" ++ LF.

Definition fetchLine (backend name : string) : string :=
  "🔍 Fetching employee '" ++ name ++ "' from " ++ backend ++ " database" ++ LF.

(** "Found employee: <name>, Salary: <amount>" *)
Definition foundLine (name : string) (salary : Z) : string :=
  "✅ Found employee: " ++ name ++ ", Salary: " ++ fmt.itoa salary ++ LF.

(* ===================================================================== *)
(** ** How computations run *)
(* ===================================================================== *)

Section Running.

Context {A B : Type}.

Lemma run_ret (a : A) (out : Stdout) : run (ret a) out = (inr a, out).
Proof. reflexivity. Qed.

Lemma run_raise (e : panic) (out : Stdout) :
  run (raise e : Go A) out = (inl e, out).
Proof. reflexivity. Qed.

Lemma run_bind (p : Go A) (k : A -> Go B) (out : Stdout) :
  run (bind p k) out =
  match run p out with
  | (inl e, out') => (inl e, out')
  | (inr a, out') => run (k a) out'
  end.
Proof.
  unfold run. simpl.
  destruct (runState (unEitherT p) out) as [[e | a] out']; reflexivity.
Qed.

End Running.

Lemma run_write (s : string) (out : Stdout) :
  run (write s) out = (inr tt, (out ++ [s])%list).
Proof. reflexivity. Qed.

Lemma run_Printf (format : string) (args : list fmt.arg) (out : Stdout) :
  run (fmt.Printf format args) out
  = (inr tt, (out ++ [fmt.Sprintf format args])%list).
Proof. reflexivity. Qed.

Lemma run_Println (args : list fmt.arg) (out : Stdout) :
  run (fmt.Println args) out = (inr tt, (out ++ [fmt.Sprintln args])%list).
Proof. reflexivity. Qed.

Lemma run_invoke_nil {C : Type -> Type} {A : Type}
    (m : forall T, C T -> T -> Go A) (out : Stdout) :
  run (invoke None m) out = (inl nilDereference, out).
Proof. reflexivity. Qed.

Lemma run_invoke_box {C : Type -> Type} {A T : Type} {I : C T} (v : T)
    (m : forall T, C T -> T -> Go A) (out : Stdout) :
  run (invoke (box (I := I) v) m) out = run (m T I v) out.
Proof. reflexivity. Qed.

(** A run that does not panic went through a boxed value. *)
Lemma run_invoke_returns {C : Type -> Type} {A : Type} (i : iface C)
    (m : forall T, C T -> T -> Go A) (out out' : Stdout) (a : A) :
  run (invoke i m) out = (inr a, out') -> i <> None.
Proof.
  intros Hrun Hnil. subst i. rewrite run_invoke_nil in Hrun. discriminate.
Qed.

Create Rewrite HintDb go.

#[local] Hint Rewrite @run_ret @run_raise @run_bind run_write run_Printf
  run_Println @run_invoke_nil @run_invoke_box : go.

Ltac go := autorewrite with go; cbn [fst snd].

(** *** Words inside lines *)

Lemma contains_intro (pre sub post : string) :
  contains (pre ++ sub ++ post) sub.
Proof. exists pre, post. reflexivity. Qed.

Lemma string_app_assoc (a b c : string) : (a ++ b) ++ c = a ++ b ++ c.
Proof. induction a as [| ch a IH]; simpl; [reflexivity | now rewrite IH]. Qed.

(** *** [int] arithmetic *)

Lemma wrap_inRange (z : Z) : GoInt.inRange z -> GoInt.wrap z = z.
Proof.
  unfold GoInt.inRange, GoInt.wrap, GoInt.MinInt, GoInt.MaxInt, GoInt.intSize.
  intros H. rewrite Z.mod_small; lia.
Qed.

Lemma wrap_is_inRange (z : Z) : GoInt.inRange (GoInt.wrap z).
Proof.
  unfold GoInt.inRange, GoInt.wrap, GoInt.MinInt, GoInt.MaxInt, GoInt.intSize.
  pose proof (Z.mod_pos_bound (z - - 2 ^ (64 - 1)) (2 ^ 64) ltac:(lia)). lia.
Qed.

(* ===================================================================== *)
(** ** 2.OCP: roles and the delegating [getSalary] *)
(* ===================================================================== *)

Section OCP_facts.

Import OCP.

(** An employee built with a role delegates to that role, whatever its
    dynamic type. *)
Lemma employee_getSalary_box (T : Type) (I : role T) (r : T) (nm : string) :
  employee_getSalary {| employee_name := nm; employee_role := box r |}
  = getSalary r.
Proof. reflexivity. Qed.

Lemma employee_getSalary_nil (em : employee) (out : Stdout) :
  employee_role em = None ->
  run (employee_getSalary em) out = (inl nilDereference, out).
Proof.
  intros Hnil. unfold employee_getSalary. rewrite Hnil.
  apply run_invoke_nil.
Qed.

(** C7.  Each role tier returns its constant, 3000 for [swe] and 5000 for
    [sswe], as a plain method and through the [role] interface; and the
    [getSalary] of every employee record is the [getSalary] call on the
    role it holds: the role's own method when a role is boxed in it, the
    call on a nil interface otherwise. *)
Theorem role_tiers_and_delegation :
  (forall s : swe, swe_getSalary s = 3000) /\
  (forall s : sswe, sswe_getSalary s = 5000) /\
  (forall (s : swe) out, run (getSalary s) out = (inr 3000, out)) /\
  (forall (s : sswe) out, run (getSalary s) out = (inr 5000, out)) /\
  (forall (T : Type) (I : role T) (r : T) (nm : string),
      employee_getSalary {| employee_name := nm; employee_role := box r |}
      = getSalary r) /\
  (forall em : employee,
      employee_getSalary em
      = match employee_role em with
        | Some b => @getSalary (dyn b) (impl b) (val b)
        | None => raise nilDereference
        end).
Proof.
  split; [| split; [| split; [| split; [| split]]]].
  - intros []. reflexivity.
  - intros []. reflexivity.
  - intros [] out. reflexivity.
  - intros [] out. reflexivity.
  - intros T I r nm. apply employee_getSalary_box.
  - intros [nm [b |]]; reflexivity.
Qed.

(** C10.  [getSalary] on the zero-value employee, and on any employee whose
    role is nil, panics with the nil dereference and returns no integer;
    whenever [getSalary] returns, the employee holds a role; and on an
    employee built with either role of the file it returns that role's
    constant. *)
Theorem getSalary_requires_role :
  (forall out,
      run (employee_getSalary employee_zero) out = (inl nilDereference, out)) /\
  (forall em out,
      employee_role em = None ->
      run (employee_getSalary em) out = (inl nilDereference, out)) /\
  (forall em out n out',
      run (employee_getSalary em) out = (inr n, out') ->
      employee_role em <> None) /\
  (forall nm out,
      run (employee_getSalary
             {| employee_name := nm; employee_role := box swe_lit |}) out
      = (inr 3000, out)) /\
  (forall nm out,
      run (employee_getSalary
             {| employee_name := nm; employee_role := box sswe_lit |}) out
      = (inr 5000, out)).
Proof.
  split; [| split; [| split; [| split]]].
  - intros out. now apply employee_getSalary_nil.
  - apply employee_getSalary_nil.
  - intros em out n out' Hrun. unfold employee_getSalary in Hrun.
    eapply run_invoke_returns; eassumption.
  - reflexivity.
  - reflexivity.
Qed.

Lemma getSalary_requires_role_witness :
  employee_role em1 <> None /\
  run (employee_getSalary employee_zero) [] = (inl nilDereference, []).
Proof.
  split.
  - apply (proj1 (proj2 (proj2 getSalary_requires_role)) em1 [] 3000 []).
    reflexivity.
  - apply (proj1 (proj2 getSalary_requires_role) employee_zero []).
    reflexivity.
Defined.

End OCP_facts.

(* ===================================================================== *)
(** ** 3.LSP: compensation and the shared consumer *)
(* ===================================================================== *)

Section LSP_facts.

Import LSP.

(** C3.  The full-time implementer returns its stored salary.  The
    contractor returns the [int] product of its hourly rate and its hours
    worked, which is their product as integers whenever that fits an
    [int]; for rate 120 and 10 hours the operation returns 1200, called
    directly or through the interface. *)
Theorem compensation_by_kind :
  (forall em : fullTimeEmployee,
      fullTimeEmployee_getSalary em = fullTimeEmployee_salary em) /\
  (forall cem : contractorEmployee,
      contractorEmployee_getSalary cem
      = GoInt.mul (contractorEmployee_hourlyRate cem)
                  (contractorEmployee_hoursWorked cem)) /\
  (forall cem : contractorEmployee,
      GoInt.inRange (contractorEmployee_hourlyRate cem
                     * contractorEmployee_hoursWorked cem) ->
      contractorEmployee_getSalary cem
      = contractorEmployee_hourlyRate cem * contractorEmployee_hoursWorked cem) /\
  (forall nm : string,
      contractorEmployee_getSalary
        {| contractorEmployee_name := nm;
           contractorEmployee_hourlyRate := 120;
           contractorEmployee_hoursWorked := 10 |} = 1200) /\
  (forall out, run (invoke (box em2) (@getSalary)) out = (inr 1200, out)).
Proof.
  split; [| split; [| split; [| split]]].
  - reflexivity.
  - reflexivity.
  - intros cem Hfit. unfold contractorEmployee_getSalary, GoInt.mul.
    now apply wrap_inRange.
  - reflexivity.
  - reflexivity.
Qed.

Lemma compensation_by_kind_witness :
  contractorEmployee_getSalary em2 = 120 * 10.
Proof.
  apply (proj1 (proj2 (proj2 compensation_by_kind)) em2).
  unfold GoInt.inRange, GoInt.MinInt, GoInt.MaxInt, GoInt.intSize.
  simpl. lia.
Defined.

(** The consumer on any implementer whose two methods return: it writes
    exactly one line, after whatever the methods themselves wrote. *)
Lemma printEmployeeInfo_box (T : Type) (I : baseEmployee T) (em : T)
    (out out1 out2 : Stdout) (n : string) (s : Z) :
  run (getName em) out = (inr n, out1) ->
  run (getSalary em) out1 = (inr s, out2) ->
  run (printEmployeeInfo (box em)) out
  = (inr tt, (out2 ++ [employeeLine n s])%list).
Proof.
  intros Hname Hsalary. unfold printEmployeeInfo.
  go. rewrite Hname. go. rewrite Hsalary. go. reflexivity.
Qed.

(** C8.  Through [printEmployeeInfo] every implementer of [baseEmployee]
    whose methods return yields one line [Name: <name>, Salary: <salary>],
    with only the two values depending on the implementer; for a
    [fullTimeEmployee] and for a [contractorEmployee] alike the run returns
    normally and appends that one line, so swapping one for the other
    changes the values reported and nothing else. *)
Theorem printEmployeeInfo_same_shape :
  (forall (T : Type) (I : baseEmployee T) (em : T) out out1 out2 n s,
      run (getName em) out = (inr n, out1) ->
      run (getSalary em) out1 = (inr s, out2) ->
      run (printEmployeeInfo (box em)) out
      = (inr tt, (out2 ++ [employeeLine n s])%list)) /\
  (forall (em : fullTimeEmployee) out,
      run (printEmployeeInfo (box em)) out
      = (inr tt, (out ++ [employeeLine (fullTimeEmployee_name em)
                                       (fullTimeEmployee_salary em)])%list)) /\
  (forall (cem : contractorEmployee) out,
      run (printEmployeeInfo (box cem)) out
      = (inr tt,
         (out ++ [employeeLine
                    (contractorEmployee_name cem)
                    (GoInt.mul (contractorEmployee_hourlyRate cem)
                               (contractorEmployee_hoursWorked cem))])%list)) /\
  run main [] = (inr tt, [employeeLine "Mohamed" 5000;
                          employeeLine "Ahmed" 1200]).
Proof.
  split; [| split; [| split]].
  - apply printEmployeeInfo_box.
  - intros em out. now apply printEmployeeInfo_box with (out1 := out).
  - intros cem out. now apply printEmployeeInfo_box with (out1 := out).
  - reflexivity.
Qed.

Lemma printEmployeeInfo_same_shape_witness :
  run (printEmployeeInfo (box em1)) ["earlier"]
  = (inr tt, ["earlier"; employeeLine "Mohamed" 5000]).
Proof.
  apply (proj1 printEmployeeInfo_same_shape _ _ em1
           ["earlier"] ["earlier"] ["earlier"] "Mohamed" 5000);
    reflexivity.
Defined.

End LSP_facts.

(* ===================================================================== *)
(** ** 5.DIP: the three backends behind the manager *)
(* ===================================================================== *)

Section DIP_facts.

Import DIP.

Lemma saveLine_contains (backend n : string) :
  contains (saveLine backend n) n /\ contains (saveLine backend n) backend.
Proof.
  unfold saveLine. split.
  - apply contains_intro.
  - exists ("💾 Saving employee '" ++ n ++ "' to "), (" database" ++ LF).
    now rewrite !string_app_assoc.
Qed.

Lemma foundLine_contains (n : string) (salary : Z) :
  contains (foundLine n salary) n.
Proof. unfold foundLine. apply contains_intro. Qed.

(** C4.  On every backend and for every queried name, [GetByName] writes
    its fetch line and returns the record with that name and salary 5000,
    together with a nil error. *)
Theorem GetByName_placeholder :
  (forall (db : MySQLRepository) name out,
      run (GetByName db name) out
      = (inr ({| Employee_Name := name; Employee_Salary := 5000 |}, None),
         (out ++ [fetchLine "MySQL" name])%list)) /\
  (forall (db : PostgresRepository) name out,
      run (GetByName db name) out
      = (inr ({| Employee_Name := name; Employee_Salary := 5000 |}, None),
         (out ++ [fetchLine "PostgreSQL" name])%list)) /\
  (forall (db : MongoRepository) name out,
      run (GetByName db name) out
      = (inr ({| Employee_Name := name; Employee_Salary := 5000 |}, None),
         (out ++ [fetchLine "MongoDB" name])%list)).
Proof.
  split; [| split]; intros db name out; reflexivity.
Qed.

(** The manager on a backend that saves and fetches without failing. *)
Lemma add_then_find (T : Type) (I : EmployeeRepository T) (db : T)
    (backend : string) (emp : Employee) (out : Stdout) :
  (forall e o, run (Save db e) o
               = (inr None, (o ++ [saveLine backend (Employee_Name e)])%list)) ->
  (forall n o, run (GetByName db n) o
               = (inr ({| Employee_Name := n; Employee_Salary := 5000 |}, None),
                  (o ++ [fetchLine backend n])%list)) ->
  run (AddEmployee {| repository := box db |} emp ;;
       FindEmployee {| repository := box db |} (Employee_Name emp)) out
  = (inr tt,
     (out ++ [saveLine backend (Employee_Name emp);
              fetchLine backend (Employee_Name emp);
              foundLine (Employee_Name emp) 5000])%list).
Proof.
  intros Hsave Hget. unfold AddEmployee, FindEmployee. cbn [repository].
  go. rewrite Hsave. go. rewrite Hget. go.
  rewrite <- !app_assoc. reflexivity.
Qed.

(** C2.  On each of the three backends, [AddEmployee] followed by
    [FindEmployee] of the same name writes the save line naming that
    backend, then the backend's fetch line, then the found line naming the
    same employee.  In particular, for [{Name: "Mohamed", Salary: 5000}]
    on the MySQL manager the save line contains "Mohamed" and "MySQL", and
    [FindEmployee("Mohamed")] then reports salary 5000. *)
Theorem add_then_find_on_each_backend :
  (forall emp out,
      run (AddEmployee manager1 emp ;;
           FindEmployee manager1 (Employee_Name emp)) out
      = (inr tt,
         (out ++ [saveLine "MySQL" (Employee_Name emp);
                  fetchLine "MySQL" (Employee_Name emp);
                  foundLine (Employee_Name emp) 5000])%list)) /\
  (forall emp out,
      run (AddEmployee manager2 emp ;;
           FindEmployee manager2 (Employee_Name emp)) out
      = (inr tt,
         (out ++ [saveLine "PostgreSQL" (Employee_Name emp);
                  fetchLine "PostgreSQL" (Employee_Name emp);
                  foundLine (Employee_Name emp) 5000])%list)) /\
  (forall emp out,
      run (AddEmployee manager3 emp ;;
           FindEmployee manager3 (Employee_Name emp)) out
      = (inr tt,
         (out ++ [saveLine "MongoDB" (Employee_Name emp);
                  fetchLine "MongoDB" (Employee_Name emp);
                  foundLine (Employee_Name emp) 5000])%list)) /\
  (forall backend n,
      contains (saveLine backend n) n /\ contains (saveLine backend n) backend) /\
  (forall n salary, contains (foundLine n salary) n) /\
  run (AddEmployee manager1 mohamed) []
  = (inr tt, ["💾 Saving employee 'Mohamed' to MySQL database" ++ LF]) /\
  contains ("💾 Saving employee 'Mohamed' to MySQL database" ++ LF) "Mohamed" /\
  contains ("💾 Saving employee 'Mohamed' to MySQL database" ++ LF) "MySQL" /\
  run (FindEmployee manager1 "Mohamed")
      ["💾 Saving employee 'Mohamed' to MySQL database" ++ LF]
  = (inr tt, ["💾 Saving employee 'Mohamed' to MySQL database" ++ LF;
              "🔍 Fetching employee 'Mohamed' from MySQL database" ++ LF;
              "✅ Found employee: Mohamed, Salary: 5000" ++ LF]).
Proof.
  split; [| split; [| split; [| split; [| split; [| split; [| split; [| split]]]]]]].
  - intros emp out. now apply add_then_find.
  - intros emp out. now apply add_then_find.
  - intros emp out. now apply add_then_find.
  - apply saveLine_contains.
  - apply foundLine_contains.
  - reflexivity.
  - apply (proj1 (saveLine_contains "MySQL" "Mohamed")).
  - apply (proj2 (saveLine_contains "MySQL" "Mohamed")).
  - reflexivity.
Qed.

End DIP_facts.

(* ===================================================================== *)
(** ** 4.ISP: what the type checker accepts *)
(* ===================================================================== *)

Section ISP_static_facts.

Import ISP.Static.

(** A variable is accepted by [ProcessPayroll] exactly when its type
    implements [PaidEmployee]. *)
Lemma ProcessPayroll_accepts_iff (env : scope) (x : string) (t : type) :
  lookup x env = Some t ->
  (checkStmt env (CallStmt "ProcessPayroll" [Ident x]) = Some env
   <-> implements t PaidEmployee = true).
Proof.
  intros Hx. cbn. rewrite Hx.
  destruct t as [| | []]; cbn; split; intros H;
    first [reflexivity | discriminate H].
Qed.

(** C9.  [Intern] has [GetName] and so implements [Employee], but does not
    implement [PaidEmployee]: the call [ProcessPayroll(intern)] is rejected
    by the type checker, as is the same call on any variable whose type
    does not implement [PaidEmployee].  [Developer] and [Manager] implement
    [PaidEmployee], and [ProcessPayroll] on a variable of either type, or
    of any type implementing [PaidEmployee], is accepted. *)
Theorem ProcessPayroll_needs_PaidEmployee :
  implements (Named Intern) Employee = true /\
  implements (Named Intern) PaidEmployee = false /\
  checkStmt main_scope payroll_intern = None /\
  typechecks [dev_decl; mgr_decl; intern_decl; payroll_intern] = false /\
  (forall env x t,
      lookup x env = Some t ->
      implements t PaidEmployee = false ->
      checkStmt env (CallStmt "ProcessPayroll" [Ident x]) = None) /\
  (forall env x t,
      lookup x env = Some t ->
      implements t PaidEmployee = true ->
      checkStmt env (CallStmt "ProcessPayroll" [Ident x]) = Some env) /\
  implements (Named Developer) PaidEmployee = true /\
  implements (Named Manager) PaidEmployee = true /\
  checkStmt main_scope (CallStmt "ProcessPayroll" [Ident "dev"])
  = Some main_scope /\
  checkStmt main_scope (CallStmt "ProcessPayroll" [Ident "mgr"])
  = Some main_scope.
Proof.
  split; [reflexivity |]. split; [reflexivity |].
  split; [reflexivity |]. split; [reflexivity |].
  split; [| split; [| repeat split]].
  - intros env x t Hx Hno.
    destruct (checkStmt env (CallStmt "ProcessPayroll" [Ident x]))
      as [env' |] eqn:Hcheck; [| reflexivity].
    assert (Henv : env' = env).
    { cbn in Hcheck. rewrite Hx in Hcheck.
      destruct (assignableTo t (Named PaidEmployee) && true);
        [now inversion Hcheck | discriminate Hcheck]. }
    subst env'.
    apply (ProcessPayroll_accepts_iff env x t Hx) in Hcheck. congruence.
  - intros env x t Hx Hyes. now apply (ProcessPayroll_accepts_iff env x t Hx).
Qed.

Lemma ProcessPayroll_needs_PaidEmployee_witness :
  checkStmt main_scope (CallStmt "ProcessPayroll" [Ident "intern"]) = None /\
  checkStmt main_scope (CallStmt "ProcessPayroll" [Ident "mgr"])
  = Some main_scope.
Proof.
  split.
  - apply (proj1 (proj2 (proj2 (proj2 (proj2
             ProcessPayroll_needs_PaidEmployee))))
             main_scope "intern" (Named Intern)); reflexivity.
  - apply (proj1 (proj2 (proj2 (proj2 (proj2 (proj2
             ProcessPayroll_needs_PaidEmployee)))))
             main_scope "mgr" (Named Manager)); reflexivity.
Defined.

(** C1, on the code.  [main] as written does not type-check: its first six
    statements are accepted and leave [dev], [mgr] and [intern] in scope,
    and the seventh, [AssignWork(dev, intern, "Review code")], is rejected
    because [Developer] has no [AssignTask] method and does not implement
    [TaskAssigner]. *)
Theorem main_is_rejected :
  typechecks main_body = false /\
  compiles main_body = false /\
  checkBody [] (firstn 6 main_body) = Some main_scope /\
  nth_error main_body 6 = Some assign_by_dev /\
  checkStmt main_scope assign_by_dev = None /\
  implements (Named Developer) TaskAssigner = false /\
  existsb (fun m => String.eqb (mname m) "AssignTask")
          (methodSet Developer) = false.
Proof. repeat split. Qed.

(** Dropping the rejected call is not enough to make [main] compile: the
    remaining statements type-check, but [intern] is then declared and
    never used. *)
Lemma main_without_last_call :
  typechecks (removelast main_body) = true /\
  unused (removelast main_body) = ["intern"] /\
  compiles (removelast main_body) = false.
Proof. repeat split. Qed.

End ISP_static_facts.

(* ===================================================================== *)
(** ** Fallible operations: who fails, and what callers do about it *)
(* ===================================================================== *)

Section Failure_facts.

(** [Manager.AssignTask] on an assignee whose [GetName] returns. *)
Lemma Manager_AssignTask_box (m : ISP.Manager) (task : string)
    (T : Type) (I : ISP.Employee T) (a : T) (out out1 : Stdout) (n : string) :
  run (ISP.GetName a) out = (inr n, out1) ->
  run (ISP.Manager_AssignTask m task (box a)) out
  = (inr None,
     (out1 ++ [fmt.Sprintf ("Manager %s assigned '%s' to %s" ++ LF)
                 [fmt.AString (ISP.Manager_Name m); fmt.AString task;
                  fmt.AString n]])%list).
Proof.
  intros Hname. unfold ISP.Manager_AssignTask.
  go. rewrite Hname. go. reflexivity.
Qed.

Lemma Manager_AssignTask_no_error (m : ISP.Manager) (task : string)
    (assignee : iface ISP.Employee) (out out' : Stdout) (e : string) :
  run (ISP.Manager_AssignTask m task assignee) out <> (inr (Some e), out').
Proof.
  destruct assignee as [[T I a] |].
  - destruct (run (ISP.GetName a) out) as [[p | n] out1] eqn:Hname.
    + unfold ISP.Manager_AssignTask.
      rewrite run_bind. cbn [invoke dyn impl val]. rewrite Hname.
      discriminate.
    + pose proof (Manager_AssignTask_box m task T I a out out1 n Hname) as Hrun.
      unfold box in Hrun. rewrite Hrun. discriminate.
  - unfold ISP.Manager_AssignTask.
    rewrite run_bind, run_invoke_nil. discriminate.
Qed.

(** C5, as the code has it.  On every input the [Save] and [GetByName] of
    the three repositories return a nil error.  [Manager.AssignTask]
    returns a nil error for every task and every assignee whose [GetName]
    returns, among them every [Developer], [Manager] and [Intern]; and on
    no input at all does it return a non-nil error. *)
Theorem implementers_never_fail :
  (forall (db : DIP.MySQLRepository) emp out,
      fst (run (DIP.Save db emp) out) = inr None) /\
  (forall (db : DIP.PostgresRepository) emp out,
      fst (run (DIP.Save db emp) out) = inr None) /\
  (forall (db : DIP.MongoRepository) emp out,
      fst (run (DIP.Save db emp) out) = inr None) /\
  (forall (db : DIP.MySQLRepository) name out,
      exists emp, fst (run (DIP.GetByName db name) out) = inr (emp, None)) /\
  (forall (db : DIP.PostgresRepository) name out,
      exists emp, fst (run (DIP.GetByName db name) out) = inr (emp, None)) /\
  (forall (db : DIP.MongoRepository) name out,
      exists emp, fst (run (DIP.GetByName db name) out) = inr (emp, None)) /\
  (forall (m : ISP.Manager) task (T : Type) (I : ISP.Employee T) (a : T)
          out out1 n,
      run (ISP.GetName a) out = (inr n, out1) ->
      fst (run (ISP.AssignTask m task (box a)) out) = inr None) /\
  (forall (m : ISP.Manager) task (d : ISP.Developer) out,
      fst (run (ISP.AssignTask m task (box d)) out) = inr None) /\
  (forall (m m' : ISP.Manager) task out,
      fst (run (ISP.AssignTask m task (box m')) out) = inr None) /\
  (forall (m : ISP.Manager) task (i : ISP.Intern) out,
      fst (run (ISP.AssignTask m task (box i)) out) = inr None) /\
  (forall (m : ISP.Manager) task assignee out e out',
      run (ISP.AssignTask m task assignee) out <> (inr (Some e), out')).
Proof.
  split; [reflexivity |]. split; [reflexivity |]. split; [reflexivity |].
  split; [intros db name out; eexists; reflexivity |].
  split; [intros db name out; eexists; reflexivity |].
  split; [intros db name out; eexists; reflexivity |].
  split; [| split; [| split; [| split]]].
  - intros m task T I a out out1 n Hname. cbn [ISP.AssignTask ISP.TaskAssigner_Manager].
    now rewrite (Manager_AssignTask_box m task T I a out out1 n Hname).
  - reflexivity.
  - reflexivity.
  - reflexivity.
  - intros m task assignee out e out'. apply Manager_AssignTask_no_error.
Qed.

Lemma implementers_never_fail_witness :
  fst (run (ISP.AssignTask ISP.mgr "Implement new feature" (box ISP.dev)) [])
  = inr None.
Proof.
  apply (proj1 (proj2 (proj2 (proj2 (proj2 (proj2 (proj2
           implementers_never_fail))))))
           ISP.mgr "Implement new feature" _ _ ISP.dev [] [] "Alice").
  reflexivity.
Defined.

(** C5, as stated, fails: with a nil assignee, [Manager.AssignTask] panics
    at [assignee.GetName()] and returns no error value at all. *)
Lemma AssignTask_nil_assignee_panics :
  run (ISP.AssignTask ISP.mgr "Review code" None) []
  = (inl nilDereference, []) /\
  ~ (forall (m : ISP.Manager) task assignee out,
        fst (run (ISP.AssignTask m task assignee) out) = inr None).
Proof.
  split; [reflexivity |].
  intros Hall. specialize (Hall ISP.mgr "Review code" None []).
  discriminate Hall.
Qed.

(** C6, as the code has it.  When [Save] returns a failure, [AddEmployee]
    writes one "Error saving employee:" line after what that single call
    wrote, and returns.  When [GetByName] returns a failure, [FindEmployee]
    writes one "Error fetching employee:" line, no found line, and
    returns.  [AssignWork] returns after the single [AssignTask] call
    having written nothing of its own, whatever that call returned.  None
    of the three calls the operation again or hands the error on. *)
Theorem callers_on_failure :
  (forall (T : Type) (I : DIP.EmployeeRepository T) (db : T) emp out e out',
      run (DIP.Save db emp) out = (inr (Some e), out') ->
      run (DIP.AddEmployee {| DIP.repository := box db |} emp) out
      = (inr tt, (out' ++ [("Error saving employee: " ++ e ++ LF)%string])%list)) /\
  (forall (T : Type) (I : DIP.EmployeeRepository T) (db : T) name out
          emp e out',
      run (DIP.GetByName db name) out = (inr (emp, Some e), out') ->
      run (DIP.FindEmployee {| DIP.repository := box db |} name) out
      = (inr tt, (out' ++ [("Error fetching employee: " ++ e ++ LF)%string])%list)) /\
  (forall (T : Type) (I : ISP.TaskAssigner T) (a : T) dev task out err out',
      run (ISP.AssignTask a task dev) out = (inr err, out') ->
      run (ISP.AssignWork (box a) dev task) out = (inr tt, out')).
Proof.
  split; [| split].
  - intros T I db emp out e out' Hsave. unfold DIP.AddEmployee.
    cbn [DIP.repository].
    go. rewrite Hsave. go. reflexivity.
  - intros T I db name out emp e out' Hget. unfold DIP.FindEmployee.
    cbn [DIP.repository].
    go. rewrite Hget. go. reflexivity.
  - intros T I a dev task out err out' Hassign. unfold ISP.AssignWork.
    go. rewrite Hassign. go. reflexivity.
Qed.

Lemma callers_on_failure_witness :
  run (DIP.AddEmployee {| DIP.repository := box Failing.repository_lit |}
                       DIP.mohamed) []
  = (inr tt, ["Error saving employee: disk full" ++ LF]) /\
  run (DIP.FindEmployee {| DIP.repository := box Failing.repository_lit |}
                        "Mohamed") []
  = (inr tt, ["Error fetching employee: no such employee" ++ LF]) /\
  run (ISP.AssignWork (box Failing.assigner_lit) (box ISP.intern)
                      "Review code") []
  = (inr tt, []).
Proof.
  split; [| split].
  - apply (proj1 callers_on_failure _ _ Failing.repository_lit
             DIP.mohamed [] "disk full" []).
    reflexivity.
  - apply (proj1 (proj2 callers_on_failure) _ _ Failing.repository_lit
             "Mohamed" []
             {| DIP.Employee_Name := ""; DIP.Employee_Salary := 0 |}
             "no such employee" []).
    reflexivity.
  - apply (proj2 (proj2 callers_on_failure) _ _ Failing.assigner_lit
             (box ISP.intern) "Review code" [] (Some "not allowed") []).
    reflexivity.
Defined.

(** C6, as stated, fails: [AssignTask] returns the failure "not allowed"
    and [AssignWork] writes nothing, leaving standard output as it was. *)
Lemma AssignWork_failure_is_silent :
  run (ISP.AssignTask Failing.assigner_lit "Review code" (box ISP.intern)) []
  = (inr (Some "not allowed"), []) /\
  run (ISP.AssignWork (box Failing.assigner_lit) (box ISP.intern)
                      "Review code") []
  = (inr tt, []) /\
  ~ (forall (T : Type) (I : ISP.TaskAssigner T) (a : T) dev task out e out',
        run (ISP.AssignTask a task dev) out = (inr (Some e), out') ->
        exists line,
          run (ISP.AssignWork (box a) dev task) out
          = (inr tt, (out' ++ [line])%list)).
Proof.
  assert (Hfails :
    run (ISP.AssignTask Failing.assigner_lit "Review code" (box ISP.intern)) []
    = (inr (Some "not allowed"), [])) by reflexivity.
  split; [exact Hfails |]. split; [reflexivity |].
  intros Hall.
  destruct (Hall _ _ Failing.assigner_lit (box ISP.intern) "Review code"
              [] "not allowed" [] Hfails) as [line Hline].
  discriminate Hline.
Qed.

End Failure_facts.

(* ===================================================================== *)
(** ** Further facts: strings and decimal numerals *)
(* ===================================================================== *)

Lemma string_app_inv_head (a x y : string) : a ++ x = a ++ y -> x = y.
Proof.
  induction a as [| c a IH]; simpl; intros H; [assumption |].
  injection H as H. now apply IH.
Qed.

Lemma string_app_nonempty (x s : string) :
  s <> "" -> String.length (x ++ s) <> String.length "".
Proof.
  intros Hs. destruct x; simpl; [| discriminate].
  destruct s; [now elim Hs | discriminate].
Qed.

Lemma string_app_inv_tail_char (c : ascii) (x y : string) :
  x ++ String c "" = y ++ String c "" -> x = y.
Proof.
  revert y. induction x as [| a x IH]; intros [| b y]; simpl; intros H.
  - reflexivity.
  - injection H as _ H. destruct y; discriminate H.
  - injection H as _ H. destruct x; discriminate H.
  - injection H as Hab H. subst b. f_equal. now apply IH.
Qed.

Lemma to_int_not_nil (n : Z) :
  Z.to_int n <> Decimal.Pos Decimal.Nil /\
  Z.to_int n <> Decimal.Neg Decimal.Nil.
Proof.
  destruct n as [| p | p]; simpl; split; try discriminate;
    intros H; injection H as H;
    now apply (DecimalPos.Unsigned.to_uint_nonnil p).
Qed.

(** The decimal numeral read back gives the number printed. *)
Lemma itoa_inj (a b : Z) : fmt.itoa a = fmt.itoa b -> a = b.
Proof.
  unfold fmt.itoa. intros H.
  apply DecimalZ.to_int_inj.
  destruct (to_int_not_nil a) as [Ha1 Ha2].
  destruct (to_int_not_nil b) as [Hb1 Hb2].
  pose proof (NilZero.isi (Z.to_int a) Ha1 Ha2) as Ea.
  pose proof (NilZero.isi (Z.to_int b) Hb1 Hb2) as Eb.
  rewrite H in Ea. rewrite Ea in Eb. now injection Eb.
Qed.

Lemma foundLine_inj_salary (n : string) (a b : Z) :
  foundLine n a = foundLine n b -> a = b.
Proof.
  unfold foundLine. intros H.
  apply string_app_inv_head in H. apply string_app_inv_head in H.
  apply string_app_inv_head in H.
  apply string_app_inv_tail_char in H. now apply itoa_inj.
Qed.

(* ===================================================================== *)
(** ** Further facts: 5.DIP, the manager over any repository *)
(* ===================================================================== *)

Section DIP_more.

Import DIP.

Lemma AddEmployee_returns (T : Type) (I : EmployeeRepository T) (db : T)
    (emp : Employee) (out out' : Stdout) :
  run (Save db emp) out = (inr None, out') ->
  run (AddEmployee {| repository := box db |} emp) out = (inr tt, out').
Proof.
  intros Hsave. unfold AddEmployee. cbn [repository].
  go. rewrite Hsave. go. reflexivity.
Qed.

Lemma FindEmployee_returns (T : Type) (I : EmployeeRepository T) (db : T)
    (name : string) (emp : Employee) (out out' : Stdout) :
  run (GetByName db name) out = (inr (emp, None), out') ->
  run (FindEmployee {| repository := box db |} name) out
  = (inr tt,
     (out' ++ [foundLine (Employee_Name emp) (Employee_Salary emp)])%list).
Proof.
  intros Hget. unfold FindEmployee. cbn [repository].
  go. rewrite Hget. go. reflexivity.
Qed.

(** X1.  On success the manager adds nothing of its own to a save, and to
    a lookup it adds exactly one found line, built from the record the
    repository returned (not from the name that was asked for). *)
Theorem manager_on_success :
  (forall (T : Type) (I : EmployeeRepository T) (db : T) emp out out',
      run (Save db emp) out = (inr None, out') ->
      run (AddEmployee {| repository := box db |} emp) out = (inr tt, out')) /\
  (forall (T : Type) (I : EmployeeRepository T) (db : T) name emp out out',
      run (GetByName db name) out = (inr (emp, None), out') ->
      run (FindEmployee {| repository := box db |} name) out
      = (inr tt,
         (out' ++ [foundLine (Employee_Name emp) (Employee_Salary emp)])%list)).
Proof.
  split.
  - apply AddEmployee_returns.
  - apply FindEmployee_returns.
Qed.

Lemma manager_on_success_witness :
  run (AddEmployee manager2 ahmed) []
  = (inr tt, [saveLine "PostgreSQL" "Ahmed"]) /\
  run (FindEmployee manager2 "Ahmed") []
  = (inr tt, [fetchLine "PostgreSQL" "Ahmed"; foundLine "Ahmed" 5000]).
Proof.
  split.
  - apply (proj1 manager_on_success _ _ PostgresRepository_lit ahmed
             [] [saveLine "PostgreSQL" "Ahmed"]).
    reflexivity.
  - apply (proj2 manager_on_success _ _ PostgresRepository_lit "Ahmed"
             {| Employee_Name := "Ahmed"; Employee_Salary := 5000 |}
             [] [fetchLine "PostgreSQL" "Ahmed"]).
    reflexivity.
Defined.

(** X2.  The zero-value manager [EmployeeManager{}] holds a nil
    repository: both of its operations panic with the nil dereference and
    write nothing. *)
Theorem manager_without_repository :
  forall em emp name out,
    repository em = None ->
    run (AddEmployee em emp) out = (inl nilDereference, out) /\
    run (FindEmployee em name) out = (inl nilDereference, out).
Proof.
  intros [r] emp name out Hnil. cbn in Hnil. subst r.
  unfold AddEmployee, FindEmployee. cbn [repository].
  split; go; reflexivity.
Qed.

Lemma manager_without_repository_witness :
  run (AddEmployee {| repository := None |} mohamed) ["earlier"]
  = (inl nilDereference, ["earlier"]) /\
  run (FindEmployee {| repository := None |} "Mohamed") ["earlier"]
  = (inl nilDereference, ["earlier"]).
Proof.
  apply (manager_without_repository {| repository := None |} mohamed
           "Mohamed" ["earlier"]).
  reflexivity.
Defined.

(** X3.  The manager never recovers from a panic of the repository: the
    panic comes out of [AddEmployee] and [FindEmployee] unchanged, with
    nothing written after it (no error line, no found line). *)
Theorem manager_propagates_panic :
  (forall (T : Type) (I : EmployeeRepository T) (db : T) emp out p out',
      run (Save db emp) out = (inl p, out') ->
      run (AddEmployee {| repository := box db |} emp) out = (inl p, out')) /\
  (forall (T : Type) (I : EmployeeRepository T) (db : T) name out p out',
      run (GetByName db name) out = (inl p, out') ->
      run (FindEmployee {| repository := box db |} name) out = (inl p, out')).
Proof.
  split.
  - intros T I db emp out p out' Hsave. unfold AddEmployee. cbn [repository].
    go. rewrite Hsave. reflexivity.
  - intros T I db name out p out' Hget. unfold FindEmployee.
    cbn [repository]. go. rewrite Hget. reflexivity.
Qed.

Lemma manager_propagates_panic_witness :
  run (AddEmployee {| repository := box Panicking.repository_lit |} ali) []
  = (inl "connection lost", ["connecting"]) /\
  run (FindEmployee {| repository := box Panicking.repository_lit |} "Ali") []
  = (inl "connection lost", ["connecting"]).
Proof.
  split.
  - apply (proj1 manager_propagates_panic _ _ Panicking.repository_lit ali
             [] "connection lost" ["connecting"]).
    reflexivity.
  - apply (proj2 manager_propagates_panic _ _ Panicking.repository_lit "Ali"
             [] "connection lost" ["connecting"]).
    reflexivity.
Defined.

(** [FindEmployee] on a repository that fetches like the three backends. *)
Lemma find_on_backend (T : Type) (I : EmployeeRepository T) (db : T)
    (backend name : string) (out : Stdout) :
  (forall n o, run (GetByName db n) o
               = (inr ({| Employee_Name := n; Employee_Salary := 5000 |}, None),
                  (o ++ [fetchLine backend n])%list)) ->
  run (FindEmployee {| repository := box db |} name) out
  = (inr tt, (out ++ [fetchLine backend name; foundLine name 5000])%list).
Proof.
  intros Hget.
  rewrite (FindEmployee_returns T I db name _ out _ (Hget name out)).
  rewrite <- app_assoc. reflexivity.
Qed.

(** X4.  On the three backends [FindEmployee] finds every name, added
    before or not: it always writes the fetch line and a found line with
    salary 5000, and never an error line. *)
Theorem FindEmployee_finds_any_name :
  (forall name out,
      run (FindEmployee manager1 name) out
      = (inr tt, (out ++ [fetchLine "MySQL" name;
                          foundLine name 5000])%list)) /\
  (forall name out,
      run (FindEmployee manager2 name) out
      = (inr tt, (out ++ [fetchLine "PostgreSQL" name;
                          foundLine name 5000])%list)) /\
  (forall name out,
      run (FindEmployee manager3 name) out
      = (inr tt, (out ++ [fetchLine "MongoDB" name;
                          foundLine name 5000])%list)).
Proof.
  split; [| split]; intros name out; now apply find_on_backend.
Qed.

(** X5.  The salary handed to [AddEmployee] is not what [FindEmployee]
    reports: for an employee whose salary is not 5000, on each backend,
    the found line written after adding that very employee differs from
    the found line carrying the employee's own salary. *)
Theorem saved_salary_is_not_reported :
  forall emp out,
    Employee_Salary emp <> 5000 ->
    forall m, In m [manager1; manager2; manager3] ->
    exists save fetch found,
      run (AddEmployee m emp ;; FindEmployee m (Employee_Name emp)) out
      = (inr tt, (out ++ [save; fetch; found])%list) /\
      found = foundLine (Employee_Name emp) 5000 /\
      found <> foundLine (Employee_Name emp) (Employee_Salary emp).
Proof.
  intros emp out Hsalary m Hm.
  assert (Hdiff : foundLine (Employee_Name emp) 5000
                  <> foundLine (Employee_Name emp) (Employee_Salary emp)).
  { intros H. apply foundLine_inj_salary in H. congruence. }
  destruct Hm as [<- | [<- | [<- | []]]];
    do 3 eexists; (split; [| split; [reflexivity | exact Hdiff]]).
  - now apply add_then_find with (backend := "MySQL").
  - now apply add_then_find with (backend := "PostgreSQL").
  - now apply add_then_find with (backend := "MongoDB").
Qed.

Lemma saved_salary_is_not_reported_witness :
  exists save fetch found,
    run (AddEmployee manager2 ahmed ;; FindEmployee manager2 "Ahmed") []
    = (inr tt, [save; fetch; found]) /\
    found = foundLine "Ahmed" 5000 /\
    found <> foundLine "Ahmed" 6000.
Proof.
  apply (saved_salary_is_not_reported ahmed []).
  - discriminate.
  - right. left. reflexivity.
Defined.

End DIP_more.

Section DIP_programs.

Import DIP.

(** X6.  The line a save writes tells the backends apart: for the same
    employee and the same prior output, no two of the three managers leave
    the same standard output after [AddEmployee]. *)
Theorem AddEmployee_identifies_backend :
  forall emp out,
    snd (run (AddEmployee manager1 emp) out)
    <> snd (run (AddEmployee manager2 emp) out) /\
    snd (run (AddEmployee manager1 emp) out)
    <> snd (run (AddEmployee manager3 emp) out) /\
    snd (run (AddEmployee manager2 emp) out)
    <> snd (run (AddEmployee manager3 emp) out).
Proof.
  intros emp out.
  assert (H1 : run (AddEmployee manager1 emp) out
               = (inr tt, (out ++ [saveLine "MySQL" (Employee_Name emp)])%list))
    by reflexivity.
  assert (H2 : run (AddEmployee manager2 emp) out
               = (inr tt,
                  (out ++ [saveLine "PostgreSQL" (Employee_Name emp)])%list))
    by reflexivity.
  assert (H3 : run (AddEmployee manager3 emp) out
               = (inr tt, (out ++ [saveLine "MongoDB" (Employee_Name emp)])%list))
    by reflexivity.
  rewrite H1, H2, H3. cbn [snd].
  repeat split; intros H; apply app_inv_head in H; injection H as H;
    apply string_app_inv_head in H; discriminate H.
Qed.

(** X7.  The program of 5.DIP runs to the end without a panic and writes
    eleven chunks: for each backend in turn the save, fetch and found
    lines, with an empty line between backends.  Every found line reports
    5000, also for Ahmed and Ali who were added with 6000 and 4500. *)
Theorem DIP_main_output :
  forall out,
    run main out
    = (inr tt,
       (out ++ [saveLine "MySQL" "Mohamed"; fetchLine "MySQL" "Mohamed";
                foundLine "Mohamed" 5000; LF;
                saveLine "PostgreSQL" "Ahmed"; fetchLine "PostgreSQL" "Ahmed";
                foundLine "Ahmed" 5000; LF;
                saveLine "MongoDB" "Ali"; fetchLine "MongoDB" "Ali";
                foundLine "Ali" 5000])%list).
Proof.
  assert (A1 : forall e o, run (AddEmployee manager1 e) o
               = (inr tt, (o ++ [saveLine "MySQL" (Employee_Name e)])%list))
    by reflexivity.
  assert (A2 : forall e o, run (AddEmployee manager2 e) o
               = (inr tt, (o ++ [saveLine "PostgreSQL" (Employee_Name e)])%list))
    by reflexivity.
  assert (A3 : forall e o, run (AddEmployee manager3 e) o
               = (inr tt, (o ++ [saveLine "MongoDB" (Employee_Name e)])%list))
    by reflexivity.
  assert (F1 : forall n o, run (FindEmployee manager1 n) o
               = (inr tt, (o ++ [fetchLine "MySQL" n;
                                 foundLine n 5000])%list))
    by (intros; now apply find_on_backend).
  assert (F2 : forall n o, run (FindEmployee manager2 n) o
               = (inr tt, (o ++ [fetchLine "PostgreSQL" n;
                                 foundLine n 5000])%list))
    by (intros; now apply find_on_backend).
  assert (F3 : forall n o, run (FindEmployee manager3 n) o
               = (inr tt, (o ++ [fetchLine "MongoDB" n;
                                 foundLine n 5000])%list))
    by (intros; now apply find_on_backend).
  intros out. unfold main.
  repeat (rewrite run_bind;
          rewrite ?A1, ?A2, ?A3, ?F1, ?F2, ?F3, ?run_Println;
          cbv iota beta).
  rewrite <- !app_assoc. reflexivity.
Qed.

End DIP_programs.

(* ===================================================================== *)
(** ** Further facts: 3.LSP and 2.OCP *)
(* ===================================================================== *)

Section LSP_more.

Import LSP.

(** X8.  [printEmployeeInfo] never writes a partial line.  On a nil
    interface it panics with the nil dereference; when [getName] panics,
    or [getName] returns and [getSalary] panics, the panic comes out
    unchanged and the consumer has written nothing of its own. *)
Theorem printEmployeeInfo_on_panic :
  (forall out,
      run (printEmployeeInfo None) out = (inl nilDereference, out)) /\
  (forall (T : Type) (I : baseEmployee T) (em : T) out p out1,
      run (getName em) out = (inl p, out1) ->
      run (printEmployeeInfo (box em)) out = (inl p, out1)) /\
  (forall (T : Type) (I : baseEmployee T) (em : T) out n out1 p out2,
      run (getName em) out = (inr n, out1) ->
      run (getSalary em) out1 = (inl p, out2) ->
      run (printEmployeeInfo (box em)) out = (inl p, out2)).
Proof.
  split; [| split].
  - intros out. reflexivity.
  - intros T I em out p out1 Hname. unfold printEmployeeInfo.
    go. rewrite Hname. reflexivity.
  - intros T I em out n out1 p out2 Hname Hsalary. unfold printEmployeeInfo.
    go. rewrite Hname. go. rewrite Hsalary. reflexivity.
Qed.

Lemma printEmployeeInfo_on_panic_witness :
  run (printEmployeeInfo (box Panicking.employee_lit)) ["earlier"]
  = (inl "no contract", ["earlier"]).
Proof.
  apply (proj2 (proj2 printEmployeeInfo_on_panic) _ _ Panicking.employee_lit
           ["earlier"] "Nobody" ["earlier"] "no contract" ["earlier"]);
    reflexivity.
Defined.

(** X9.  The contractor's salary is computed without any validation.  It
    always lies in the range of [int] and agrees with the integer product
    modulo 2^64; it is 0 as soon as the rate or the hours are 0; it is
    negative for a positive rate and negative hours whose product fits;
    and for some rates and hours that are themselves valid [int]s it is
    not the integer product. *)
Theorem contractor_salary_edges :
  (forall cem, GoInt.inRange (contractorEmployee_getSalary cem)) /\
  (forall cem,
      (contractorEmployee_getSalary cem
       - contractorEmployee_hourlyRate cem * contractorEmployee_hoursWorked cem)
      mod 2 ^ 64 = 0) /\
  (forall cem,
      contractorEmployee_hourlyRate cem = 0
      \/ contractorEmployee_hoursWorked cem = 0 ->
      contractorEmployee_getSalary cem = 0) /\
  (forall cem,
      0 < contractorEmployee_hourlyRate cem ->
      contractorEmployee_hoursWorked cem < 0 ->
      GoInt.inRange (contractorEmployee_hourlyRate cem
                     * contractorEmployee_hoursWorked cem) ->
      contractorEmployee_getSalary cem < 0) /\
  (exists cem,
      GoInt.inRange (contractorEmployee_hourlyRate cem) /\
      GoInt.inRange (contractorEmployee_hoursWorked cem) /\
      contractorEmployee_getSalary cem
      <> contractorEmployee_hourlyRate cem * contractorEmployee_hoursWorked cem).
Proof.
  split; [| split; [| split; [| split]]].
  - intros cem. apply wrap_is_inRange.
  - intros [nm r h].
    unfold contractorEmployee_getSalary, GoInt.mul, GoInt.wrap.
    cbn [contractorEmployee_hourlyRate contractorEmployee_hoursWorked].
    change (2 ^ GoInt.intSize) with (2 ^ 64).
    set (x := r * h - GoInt.MinInt).
    pose proof (Z.div_mod x (2 ^ 64) ltac:(lia)) as Hx.
    replace (x mod 2 ^ 64 + GoInt.MinInt - r * h)
      with (- (x / 2 ^ 64) * 2 ^ 64) by (unfold x in *; lia).
    apply Z.mod_mul. lia.
  - intros [nm r h].
    unfold contractorEmployee_getSalary, GoInt.mul.
    cbn [contractorEmployee_hourlyRate contractorEmployee_hoursWorked].
    intros [-> | ->]; [rewrite Z.mul_0_l | rewrite Z.mul_0_r]; reflexivity.
  - intros [nm r h].
    unfold contractorEmployee_getSalary, GoInt.mul.
    cbn [contractorEmployee_hourlyRate contractorEmployee_hoursWorked].
    intros Hr Hh Hfit. rewrite (wrap_inRange _ Hfit). nia.
  - exists {| contractorEmployee_name := "";
              contractorEmployee_hourlyRate := 2 ^ 32;
              contractorEmployee_hoursWorked := 2 ^ 32 |}.
    repeat split; vm_compute; congruence.
Qed.

Lemma contractor_salary_edges_witness :
  contractorEmployee_getSalary
    {| contractorEmployee_name := "Ahmed";
       contractorEmployee_hourlyRate := 120;
       contractorEmployee_hoursWorked := 0 |} = 0 /\
  contractorEmployee_getSalary
    {| contractorEmployee_name := "Ahmed";
       contractorEmployee_hourlyRate := 120;
       contractorEmployee_hoursWorked := -10 |} < 0.
Proof.
  split.
  - apply (proj1 (proj2 (proj2 contractor_salary_edges))).
    right. reflexivity.
  - apply (proj1 (proj2 (proj2 (proj2 contractor_salary_edges)))).
    + reflexivity.
    + reflexivity.
    + unfold GoInt.inRange, GoInt.MinInt, GoInt.MaxInt, GoInt.intSize.
      simpl. lia.
Defined.

End LSP_more.

Section OCP_more.

Import OCP.

(** X10.  The program of 2.OCP runs to the end without a panic and writes
    [Salary 3000] and then [Salary 5000], one line each. *)
Theorem OCP_main_output :
  forall out,
    run main out
    = (inr tt, (out ++ [("Salary 3000" ++ LF)%string;
                        ("Salary 5000" ++ LF)%string])%list).
Proof.
  intros out. unfold main.
  repeat (rewrite run_bind;
          rewrite ?(employee_getSalary_box swe role_swe swe_lit "Mohamed"),
                  ?(employee_getSalary_box sswe role_sswe sswe_lit "Ahmed"),
                  ?run_Println;
          cbn).
  rewrite <- app_assoc. reflexivity.
Qed.

End OCP_more.

(* ===================================================================== *)
(** ** Further facts: 1.SRP *)
(* ===================================================================== *)

Section SRP_facts.

Import SRP.

Lemma string_length_app (a b : string) :
  String.length (a ++ b) = (String.length a + String.length b)%nat.
Proof. induction a as [| c a IH]; simpl; [reflexivity | now rewrite IH]. Qed.

Lemma string_app_nil_r (a : string) : a ++ "" = a.
Proof. induction a as [| c a IH]; simpl; [reflexivity | now rewrite IH]. Qed.

Lemma getFullName_returns (e : employee) (out : Stdout) :
  run (employee_getFullName (Some e)) out
  = (inr (employee_firstName e ++ " " ++ employee_lastName e), out).
Proof.
  unfold employee_getFullName. go. cbn.
  now rewrite string_app_nil_r.
Qed.

(** X11.  Through a non-nil pointer [getFullName] returns the first name,
    one space and the last name, and writes nothing.  The result is
    therefore never empty and one longer than the two names together, and
    it does not determine the two names: employees with different first
    and last names can have the same full name. *)
Theorem getFullName_joins_names :
  (forall e out,
      run (employee_getFullName (Some e)) out
      = (inr (employee_firstName e ++ " " ++ employee_lastName e), out)) /\
  (forall e out s out',
      run (employee_getFullName (Some e)) out = (inr s, out') ->
      s <> "" /\
      String.length s
      = (String.length (employee_firstName e) + 1
         + String.length (employee_lastName e))%nat) /\
  (exists e1 e2,
      employee_firstName e1 <> employee_firstName e2 /\
      employee_lastName e1 <> employee_lastName e2 /\
      run (employee_getFullName (Some e1)) []
      = run (employee_getFullName (Some e2)) []).
Proof.
  split; [| split].
  - apply getFullName_returns.
  - intros e out s out' Hrun. rewrite getFullName_returns in Hrun.
    injection Hrun as <- _. split.
    + destruct (employee_firstName e); discriminate.
    + rewrite string_length_app. simpl. lia.
  - exists {| employee_firstName := "Mohamed Ali";
              employee_lastName := "Habib"; employee_email := "" |},
           {| employee_firstName := "Mohamed";
              employee_lastName := "Ali Habib"; employee_email := "" |}.
    repeat split; discriminate.
Qed.

Lemma getFullName_joins_names_witness :
  "Mohamed Habib" <> "" /\ String.length "Mohamed Habib" = (7 + 1 + 5)%nat.
Proof.
  apply (proj1 (proj2 getFullName_joins_names) user [] "Mohamed Habib" []).
  reflexivity.
Defined.

(** X12.  The two accessors read through their receiver and panic on a
    nil pointer, as does a read of the e-mail; [saveEmployee] never touches
    its receiver, so it returns normally even on a nil pointer, and it
    writes nothing.  The program of 1.SRP as a whole ends normally and
    leaves standard output as it found it. *)
Theorem SRP_receivers_and_main :
  (forall out,
      run (employee_getFullName None) out = (inl nilDereference, out)) /\
  (forall out,
      run (employee_getEmail None) out = (inl nilDereference, out)) /\
  (forall e out,
      run (employee_getEmail (Some e)) out = (inr (employee_email e), out)) /\
  (forall emr out,
      run (empRepository_saveEmployee emr) out = (inr tt, out)) /\
  (forall out, run main out = (inr tt, out)).
Proof.
  split; [| split; [| split; [| split]]]; try reflexivity.
Qed.

End SRP_facts.

(* ===================================================================== *)
(** ** Further facts: 4.ISP, the two consumers *)
(* ===================================================================== *)

Section ISP_more.

Import ISP.

Variable fixed2 : float64 -> string.

(** "Paying <name>: <amount> EUR" *)
Let payLine (n : string) (pay : float64) : string :=
  "Paying " ++ n ++ ": " ++ fixed2 pay ++ " EUR" ++ LF.

Lemma ProcessPayroll_box (T : Type) (I : PaidEmployee T) (e : T)
    (out out1 out2 : Stdout) (n : string) (pay : float64) :
  run (GetName e) out = (inr n, out1) ->
  run (CalculateMonthlyPay e) out1 = (inr pay, out2) ->
  run (ProcessPayroll fixed2 (box e)) out
  = (inr tt, (out2 ++ [payLine n pay])%list).
Proof.
  intros Hname Hpay. unfold ProcessPayroll, payLine.
  go. rewrite Hname. go. rewrite Hpay. go. cbn.
  now rewrite (string_app_assoc n ": " _).
Qed.

(** X13.  [ProcessPayroll] writes one line, "Paying <name>: <amount> EUR",
    for every payable value whose two methods return; for a [Developer]
    and for a [Manager] the name and the amount are the stored [Name] and
    [Salary].  On a nil interface it panics and writes nothing.  (The
    two-decimal rendering of the amount is a parameter.) *)
Theorem ProcessPayroll_line :
  (forall (T : Type) (I : PaidEmployee T) (e : T) out out1 out2 n pay,
      run (GetName e) out = (inr n, out1) ->
      run (CalculateMonthlyPay e) out1 = (inr pay, out2) ->
      run (ProcessPayroll fixed2 (box e)) out
      = (inr tt,
         (out2 ++ [("Paying " ++ n ++ ": " ++ fixed2 pay ++ " EUR" ++ LF)
                     %string])%list)) /\
  (forall (d : Developer) out,
      run (ProcessPayroll fixed2 (box d)) out
      = (inr tt,
         (out ++ [("Paying " ++ Developer_Name d ++ ": "
                   ++ fixed2 (Developer_Salary d) ++ " EUR" ++ LF)
                    %string])%list)) /\
  (forall (m : Manager) out,
      run (ProcessPayroll fixed2 (box m)) out
      = (inr tt,
         (out ++ [("Paying " ++ Manager_Name m ++ ": "
                   ++ fixed2 (Manager_Salary m) ++ " EUR" ++ LF)
                    %string])%list)) /\
  (forall out,
      run (ProcessPayroll fixed2 None) out = (inl nilDereference, out)).
Proof.
  split; [| split; [| split]].
  - apply ProcessPayroll_box.
  - intros d out. now apply ProcessPayroll_box with (out1 := out).
  - intros m out. now apply ProcessPayroll_box with (out1 := out).
  - reflexivity.
Qed.

(** X14.  [AssignWork] with a [Manager] as the assigner writes exactly the
    line "Manager <manager> assigned '<task>' to <assignee>" once the
    assignee has given its name, and returns.  With a nil assigner, or a
    [Manager] and a nil assignee, it panics and writes nothing. *)
Theorem AssignWork_by_manager :
  (forall (m : Manager) (T : Type) (I : Employee T) (a : T) task out n out1,
      run (GetName a) out = (inr n, out1) ->
      run (AssignWork (box m) (box a) task) out
      = (inr tt,
         (out1 ++ [("Manager " ++ Manager_Name m ++ " assigned '" ++ task
                    ++ "' to " ++ n ++ LF)%string])%list)) /\
  (forall dev task out,
      run (AssignWork None dev task) out = (inl nilDereference, out)) /\
  (forall (m : Manager) task out,
      run (AssignWork (box m) None task) out = (inl nilDereference, out)).
Proof.
  split; [| split].
  - intros m T I a task out n out1 Hname. unfold AssignWork.
    go. cbn [AssignTask TaskAssigner_Manager].
    rewrite (Manager_AssignTask_box m task T I a out out1 n Hname).
    reflexivity.
  - reflexivity.
  - reflexivity.
Qed.

End ISP_more.

Lemma ProcessPayroll_line_witness :
  run (ISP.ProcessPayroll (fun _ => "3000.00") (box ISP.dev)) ["earlier"]
  = (inr tt, ["earlier"; "Paying Alice: 3000.00 EUR" ++ LF]).
Proof.
  apply (proj1 (ProcessPayroll_line (fun _ => "3000.00")) _ _ ISP.dev
           ["earlier"] ["earlier"] ["earlier"] "Alice" 3000%float);
    reflexivity.
Defined.

Lemma AssignWork_by_manager_witness :
  run (ISP.AssignWork (box ISP.mgr) (box ISP.intern) "Review code") []
  = (inr tt, ["Manager Bob assigned 'Review code' to Charlie" ++ LF]).
Proof.
  apply (proj1 AssignWork_by_manager ISP.mgr _ _ ISP.intern "Review code"
           [] "Charlie" []).
  reflexivity.
Defined.

(* ===================================================================== *)
(** ** Further facts: 4.ISP, who satisfies which interface *)
(* ===================================================================== *)

Section ISP_static_more.

Import ISP.Static.

(** X15.  [PaidEmployee] embeds [Employee]: every type that implements
    [PaidEmployee] implements [Employee], so whatever [ProcessPayroll]
    accepts is also accepted as the assignee of [AssignWork] by a manager.
    The converse fails, [Intern] being the one struct that separates the
    two interfaces. *)
Theorem payable_is_employee :
  (forall t, implements t PaidEmployee = true ->
             implements t Employee = true) /\
  (forall env x t,
      lookup x env = Some t ->
      lookup "mgr" env = Some (Named Manager) ->
      checkStmt env (CallStmt "ProcessPayroll" [Ident x]) = Some env ->
      forall task,
        checkStmt env (CallStmt "AssignWork"
                         [Ident "mgr"; Ident x; Const (StringLit task)])
        = Some env) /\
  (forall n,
      isInterface n = false ->
      (implements (Named n) Employee = true
       /\ implements (Named n) PaidEmployee = false
       <-> n = Intern)).
Proof.
  assert (Hsub : forall t, implements t PaidEmployee = true ->
                           implements t Employee = true).
  { intros [| | []]; cbn; intros H; first [reflexivity | discriminate H]. }
  split; [exact Hsub |]. split.
  - intros env x t Hx Hmgr Hpay task.
    apply (ProcessPayroll_accepts_iff env x t Hx) in Hpay.
    apply Hsub in Hpay.
    cbn. rewrite Hmgr, Hx.
    replace (assignableTo (Named Manager) (Named TaskAssigner))
      with true by reflexivity.
    replace (assignableTo t (Named Employee)) with true; [reflexivity |].
    unfold assignableTo. rewrite Hpay. now rewrite orb_true_r.
  - intros []; cbn; intros Hstruct; try discriminate Hstruct;
      split; intros H; try reflexivity; try discriminate H;
      first [now split | now destruct H].
Qed.

Lemma payable_is_employee_witness :
  checkStmt main_scope
    (CallStmt "AssignWork"
       [Ident "mgr"; Ident "dev"; Const (StringLit "Implement new feature")])
  = Some main_scope.
Proof.
  apply (proj1 (proj2 payable_is_employee) main_scope "dev" (Named Developer));
    reflexivity.
Defined.

(** X16.  A call [AssignWork(a, d, "...")] on two variables is accepted
    exactly when the type of [a] implements [TaskAssigner] and the type of
    [d] implements [Employee].  Among the named types only [Manager] (and
    the interface itself) implements [TaskAssigner], while all three
    structs implement [Employee]: any of them can be given work, and only
    a manager can give it. *)
Theorem AssignWork_accepts_iff :
  (forall env a d ta td task,
      lookup a env = Some ta ->
      lookup d env = Some td ->
      (checkStmt env (CallStmt "AssignWork"
                        [Ident a; Ident d; Const (StringLit task)])
       = Some env
       <-> implements ta TaskAssigner = true
           /\ implements td Employee = true)) /\
  (forall n, implements (Named n) TaskAssigner = true
             <-> n = Manager \/ n = TaskAssigner) /\
  implements (Named Developer) Employee = true /\
  implements (Named Manager) Employee = true /\
  implements (Named Intern) Employee = true.
Proof.
  split; [| split; [| repeat split]].
  - intros env a d ta td task Ha Hd.
    cbn -[assignableTo implements]. rewrite Ha, Hd.
    assert (Hta : assignableTo ta (Named TaskAssigner)
                  = implements ta TaskAssigner)
      by (destruct ta as [| | []]; reflexivity).
    assert (Htd : assignableTo td (Named Employee) = implements td Employee)
      by (destruct td as [| | []]; reflexivity).
    rewrite Hta, Htd.
    destruct (implements ta TaskAssigner), (implements td Employee); cbn;
      split; intros H; try reflexivity; try discriminate H;
      first [now split | now destruct H].
  - intros []; cbn; split; intros H; try reflexivity; try discriminate H;
      try (destruct H as [H | H]; discriminate H);
      first [now left | now right].
Qed.

Lemma AssignWork_accepts_iff_witness :
  checkStmt main_scope
    (CallStmt "AssignWork"
       [Ident "mgr"; Ident "intern"; Const (StringLit "Review code")])
  = Some main_scope.
Proof.
  apply (proj1 AssignWork_accepts_iff main_scope "mgr" "intern"
           (Named Manager) (Named Intern) "Review code"
           eq_refl eq_refl).
  split; reflexivity.
Defined.

End ISP_static_more.
